(** * AI music composer: style catalog, audio post-processing, generation
      adapter and library store

    A shallow embedding of [music_styles.py], [audio_processor.py],
    [music_generator.py] and [export_manager.py], with the properties of
    the specification stated over it.

    Conventions of the embedding.
    - Python strings are [string]; a [dict] used as a table is a [gmap].
    - Amplitudes are exact rationals ([Q]): the arithmetic of the code
      (one division by the peak, one multiplication by a ramp) is modelled
      without rounding.
    - Code that may raise returns [res]; a [try]/[except Exception] block
      is [catch].  The exceptions are those that [except Exception]
      catches.  Code that touches the disk threads a [world].
    - A library record is the dict that [save_music_file] builds, with
      the keys that [app.py] adds; a sidecar that is not an array of such
      records is a file on which reading raises. *)

From Stdlib Require Import ZArith QArith Qabs List Ascii String Permutation Sorted.
From stdpp Require Import base gmap strings list.

Local Open Scope string_scope.
Local Open Scope list_scope.
Local Open Scope Z_scope.

(** ** Exceptions and results *)

(** A Python exception, with the text that [str(e)] gives. *)
Inductive exn : Type :=
| ValueError (msg : string)
| IndexError (msg : string)
| OSError (msg : string)
| JSONDecodeError (msg : string)
| RuntimeError (msg : string).

Definition str_exn (e : exn) : string :=
  match e with
  | ValueError m | IndexError m | OSError m | JSONDecodeError m
  | RuntimeError m => m
  end.

Inductive res (A : Type) : Type :=
| Ok (a : A)
| Raise (e : exn).
Arguments Ok {A} a.
Arguments Raise {A} e.

Definition is_ok {A} (r : res A) : bool :=
  match r with Ok _ => true | Raise _ => false end.

(** ** Stateful code that may raise *)

(** A computation over a state [S]: it returns or raises, and leaves a
    state either way. *)
Definition stM (S A : Type) : Type := S -> res A * S.

Definition ret {S A} (a : A) : stM S A := fun s => (Ok a, s).
Definition raise {S A} (e : exn) : stM S A := fun s => (Raise e, s).
Definition lift {S A} (r : res A) : stM S A := fun s => (r, s).

Definition bind {S A B} (m : stM S A) (k : A -> stM S B) : stM S B :=
  fun s =>
    match m s with
    | (Ok a, s') => k a s'
    | (Raise e, s') => (Raise e, s')
    end.

(** [try: m  except Exception as e: h e]. *)
Definition catch {S A} (m : stM S A) (h : exn -> stM S A) : stM S A :=
  fun s =>
    match m s with
    | (Ok a, s') => (Ok a, s')
    | (Raise e, s') => h e s'
    end.

Notation "'do' x <- m ; k" := (bind m (fun x => k))
  (at level 10, x name, m at level 100, k at level 200).
Notation "m ;; k" := (bind m (fun _ => k))
  (at level 100, k at level 200, right associativity).

(** ** Python arithmetic *)

(** [int(x)] on a number: truncation toward zero. *)
Definition py_int (x : Q) : Z := Z.quot (Qnum x) (Z.pos (Qden x)).

(** A slice bound [i] of a sequence of length [len], as Python clamps it. *)
Definition slice_index (i : Z) (len : nat) : nat :=
  Z.to_nat (if i <? 0 then Z.max (i + Z.of_nat len) 0
            else Z.min i (Z.of_nat len)).

(** ** Style catalog ([music_styles.py]) *)

Module MusicStyles.

Record StyleConfig : Type := {
  name : string;
  description : string;
  keywords : list string;
  tempo : string;
  mood : string
}.

(** The literal of [__init__], in source order. *)
Definition style_table : list (string * StyleConfig) :=
  [ ("jazz",
     {| name := "Jazz";
        description := "Smooth, sophisticated, improvisational";
        keywords := ["jazz"; "swing"; "blues"; "piano"; "saxophone"; "smooth"];
        tempo := "medium"; mood := "sophisticated" |});
    ("classical",
     {| name := "Classical";
        description := "Orchestral, elegant, timeless";
        keywords := ["classical"; "orchestral"; "symphony"; "piano"; "violin";
                     "elegant"];
        tempo := "varied"; mood := "elegant" |});
    ("electronic",
     {| name := "Electronic";
        description := "Synthesized, modern, digital";
        keywords := ["electronic"; "synth"; "digital"; "beats"; "modern";
                     "futuristic"];
        tempo := "fast"; mood := "energetic" |});
    ("rock",
     {| name := "Rock";
        description := "Guitar-driven, energetic, powerful";
        keywords := ["rock"; "guitar"; "drums"; "electric"; "powerful";
                     "energetic"];
        tempo := "fast"; mood := "energetic" |});
    ("ambient",
     {| name := "Ambient";
        description := "Atmospheric, peaceful, meditative";
        keywords := ["ambient"; "atmospheric"; "peaceful"; "ethereal"; "calm";
                     "meditative"];
        tempo := "slow"; mood := "peaceful" |});
    ("pop",
     {| name := "Pop";
        description := "Catchy, melodic, mainstream";
        keywords := ["pop"; "catchy"; "melodic"; "upbeat"; "mainstream";
                     "radio-friendly"];
        tempo := "medium-fast"; mood := "upbeat" |}) ].

(** [self.style_configs]. *)
Definition style_configs : gmap string StyleConfig := list_to_map style_table.

(** [sep.join(l)]. *)
Fixpoint join (sep : string) (l : list string) : string :=
  match l with
  | [] => ""
  | [x] => x
  | x :: rest => x +:+ sep +:+ join sep rest
  end.

(** [get_style_prompt]: [config["keywords"][:3]] is [take 3]. *)
Definition get_style_prompt (base_prompt style : string) : string :=
  match style_configs !! style with
  | None => base_prompt
  | Some config =>
      let keywords := join ", " (take 3 (keywords config)) in
      base_prompt +:+ ", " +:+ keywords +:+ ", " +:+ mood config
  end.

(** [get_all_styles]: the keys, in insertion order. *)
Definition get_all_styles : list string := style_table.*1.



End MusicStyles.

(** ** Audio data *)

(** A numpy array of amplitudes: one-dimensional, or two-dimensional as
    a list of rows ([a[0]] is the first row). *)
Inductive ndarray : Type :=
| Arr1 (xs : list Q)
| Arr2 (rows : list (list Q)).

(** What [sf.write] stores: the amplitudes it is given (the rounding to
    the sample format of the file is not modelled).  [AllNaN n] is an
    array of [n] NaN, which is what numpy's [0.0 / 0.0] yields for every
    element of a silent array (a warning, not an exception); [Q] has no
    such value. *)
Inductive pcm : Type :=
| Samples (a : ndarray)
| AllNaN (n : nat).

Record wav : Type := { wav_rate : Z; wav_data : pcm }.

Definition qmax (a b : Q) : Q := if Qle_bool a b then b else a.

(** [np.max(np.abs(xs))]; numpy raises on a zero-size array. *)
Definition np_abs_max (xs : list Q) : res Q :=
  match xs with
  | [] => Raise (ValueError "zero-size array to reduction operation maximum")
  | x :: rest => Ok (foldl (fun m y => qmax m (Qabs y)) (Qabs x) rest)
  end.

Definition flatten (a : ndarray) : list Q :=
  match a with
  | Arr1 xs => xs
  | Arr2 rows => concat rows
  end.

(** Peak absolute amplitude of stored audio, when it has one. *)
Definition wav_peak (f : wav) : option Q :=
  match wav_data f with
  | Samples a =>
      match np_abs_max (flatten a) with Ok p => Some p | Raise _ => None end
  | AllNaN _ => None
  end.

(** ** Library records *)

(** The keys that [app.py] passes as [metadata] to [save_music_file]. *)
Record ExtraMetadata : Type := {
  style : string;
  duration : Z;
  temperature : Q;
  top_k : Z;
  model : string;
  generation_time : Q
}.

(** The dict built in [save_music_file]: the five keys of its literal,
    then the keys of [metadata] when one was given.  The library code
    reads [filepath] and [timestamp] only. *)
Record MusicRecord : Type := {
  filename : string;
  prompt : string;
  timestamp : string;
  filepath : string;
  file_size : Z;
  extra : option ExtraMetadata
}.

(** ** The file system *)

(** What a path holds.  [JsonFile l] is a file that [json.load] reads as
    the array of records [l]; [OtherFile] is a file for which [json.load],
    or the loop over its entries, raises. *)
Inductive node : Type :=
| Dir
| WavFile (f : wav)
| JsonFile (l : list MusicRecord)
| OtherFile.

(** The disk: the paths that exist, and the paths on which the operating
    system refuses [open(p, 'w')] or [os.remove(p)] (permissions, a
    missing parent directory, a full disk).  Directories are not nested:
    a path is a key, and what the system refuses is given path by path. *)
Record world : Type := {
  files : gmap string node;
  no_write : gset string;
  no_remove : gset string
}.

(** A disk with no file on it and nothing refused. *)
Definition empty_world : world :=
  {| files := ∅; no_write := ∅; no_remove := ∅ |}.

Definition set_files (w : world) (fs : gmap string node) : world :=
  {| files := fs; no_write := no_write w; no_remove := no_remove w |}.

(** Code that reads or writes the disk. *)
Definition io (A : Type) : Type := stM world A.

Module Fs.

Definition is_dir (o : option node) : bool :=
  match o with Some Dir => true | _ => false end.

(** [os.path.exists(p)]. *)
Definition path_exists (p : string) (w : world) : bool :=
  bool_decide (is_Some (files w !! p)).

Definition exists_ (p : string) : io bool :=
  fun w => (Ok (path_exists p w), w).

Definition can_write (p : string) (w : world) : bool :=
  bool_decide (p ∉ no_write w) && negb (is_dir (files w !! p)).

(** Opening [p] for writing and storing [n]; a refused open leaves the
    disk as it was. *)
Definition write_file (p : string) (n : node) : io unit :=
  fun w =>
    if can_write p w then (Ok tt, set_files w (<[p := n]> (files w)))
    else (Raise (OSError "cannot open for writing"), w).

(** [with open(p, 'r') as f: json.load(f)]. *)
Definition read_json (p : string) : io (list MusicRecord) :=
  fun w =>
    match files w !! p with
    | Some (JsonFile l) => (Ok l, w)
    | Some Dir => (Raise (OSError "is a directory"), w)
    | Some (WavFile _) | Some OtherFile =>
        (Raise (JSONDecodeError "not an array of records"), w)
    | None => (Raise (OSError "no such file"), w)
    end.

Definition can_remove (p : string) (w : world) : bool :=
  bool_decide (p ∉ no_remove w) &&
  match files w !! p with
  | Some Dir | None => false
  | Some _ => true
  end.

(** [os.remove(p)]. *)
Definition remove (p : string) : io unit :=
  fun w =>
    if can_remove p w then (Ok tt, set_files w (delete p (files w)))
    else (Raise (OSError "cannot remove"), w).

(** Bytes of a WAV file as [sf.write] lays it out by default (16-bit PCM:
    a 44-byte header, two bytes a sample). *)
Definition wav_bytes (f : wav) : Z :=
  match wav_data f with
  | Samples a => 44 + 2 * Z.of_nat (length (flatten a))
  | AllNaN n => 44 + 2 * Z.of_nat n
  end.

(** [os.path.getsize(p)].  The program asks for the size of the WAV file
    it has just written; the size of other content is not tracked. *)
Definition getsize (p : string) : io Z :=
  fun w =>
    match files w !! p with
    | Some (WavFile f) => (Ok (wav_bytes f), w)
    | Some _ => (Ok 0, w)
    | None => (Raise (OSError "no such file"), w)
    end.

(** [s.endswith("/")]. *)
Fixpoint ends_with_slash (s : string) : bool :=
  match s with
  | EmptyString => false
  | String c EmptyString => bool_decide (c = "/"%char)
  | String _ rest => ends_with_slash rest
  end.

(** [os.path.join(a, b)] for a relative [b]. *)
Definition path_join (a b : string) : string :=
  if decide (a = "") then b
  else if ends_with_slash a then a +:+ b
  else a +:+ "/" +:+ b.

End Fs.

(** ** Audio post-processor ([audio_processor.py]) *)

Module AudioProcessor.

(** [self.sample_rate]. *)
Definition sample_rate : Z := 32000.

(** [np.linspace(start, stop, num)]: [num] evenly spaced values with both
    ends included; a negative [num] raises. *)
Definition linspace (start stop : Q) (num : Z) : res (list Q) :=
  if num <? 0 then
    Raise (ValueError "Number of samples must be non-negative")
  else
    let step := ((stop - start) / inject_Z (num - 1))%Q in
    Ok (map (fun i => (start + inject_Z i * step)%Q) (seqZ 0 num)).

(** [a[lo:hi] *= v] with numpy's broadcasting of a one-dimensional
    operand: [v] must have the length of the slice, or length one; any
    other length raises and leaves [a] as it was. *)
Definition imul_slice (a : list Q) (lo hi : nat) (v : list Q) : res (list Q) :=
  let target := take (hi - lo) (drop lo a) in
  if decide (length v = length target) then
    Ok (take lo a ++ zip_with Qmult target v ++ drop (lo + length target) a)
  else
    match v with
    | [c] => Ok (take lo a ++ map (fun x => (x * c)%Q) target
                   ++ drop (lo + length target) a)
    | _ => Raise (ValueError "operands could not be broadcast together")
    end.

(** The number of samples in a fade of [seconds] seconds:
    [int(seconds * self.sample_rate)]. *)
Definition fade_window (seconds : Q) : Z :=
  py_int (seconds * inject_Z sample_rate).

(** The [try] block of [add_fade_effects].  The array is updated in
    place, so the second component is the array as the block leaves it,
    also when it raises. *)
Definition add_fade_effects_try (audio_array : list Q)
    (fade_in_duration fade_out_duration : Q) : res unit * list Q :=
  let fade_in_samples := py_int (fade_in_duration * inject_Z sample_rate) in
  let fade_out_samples := py_int (fade_out_duration * inject_Z sample_rate) in
  match linspace 0 1 fade_in_samples with
  | Raise e => (Raise e, audio_array)
  | Ok fade_in =>
  match linspace 1 0 fade_out_samples with
  | Raise e => (Raise e, audio_array)
  | Ok fade_out =>
  let n := length audio_array in
  match (if Z.of_nat n >? fade_in_samples
         then imul_slice audio_array 0 (slice_index fade_in_samples n) fade_in
         else Ok audio_array) with
  | Raise e => (Raise e, audio_array)
  | Ok faded_in =>
  match (if Z.of_nat n >? fade_out_samples
         then imul_slice faded_in (slice_index (- fade_out_samples) n) n fade_out
         else Ok faded_in) with
  | Raise e => (Raise e, faded_in)
  | Ok faded_out => (Ok tt, faded_out)
  end end end end.

(** [add_fade_effects]: both the [try] and the [except] branch return the
    (same, updated in place) array. *)
Definition add_fade_effects (audio_array : list Q)
    (fade_in_duration fade_out_duration : Q) : list Q :=
  snd (add_fade_effects_try audio_array fade_in_duration fade_out_duration).


(** [adjust_volume]. *)
Definition adjust_volume (audio_array : list Q) (volume_factor : Q) : list Q :=
  map (fun x => (x * volume_factor)%Q) audio_array.

(** [audio_array[0]] when [ndim > 1]. *)
Definition first_channel (a : ndarray) : res (list Q) :=
  match a with
  | Arr1 xs => Ok xs
  | Arr2 [] => Raise (IndexError "index 0 is out of bounds for axis 0 with size 0")
  | Arr2 (row :: _) => Ok row
  end.

(** [audio_array / peak], element by element. *)
Definition normalize (xs : list Q) (peak : Q) : pcm :=
  if Qeq_bool peak 0 then AllNaN (length xs)
  else Samples (Arr1 (map (fun x => (x / peak)%Q) xs)).

(** [save_audio]. *)
Definition save_audio (audio_array : ndarray) (filename : string)
    (rate : option Z) : io bool :=
  let rate := default sample_rate rate in
  catch
    (do xs <- lift (first_channel audio_array);
     do peak <- lift (np_abs_max xs);
     Fs.write_file filename
       (WavFile {| wav_rate := rate; wav_data := normalize xs peak |});;
     ret true)
    (fun _ => ret false).

(** [create_audio_buffer]: the buffer holds what [sf.write] was given. *)
Definition create_audio_buffer (audio_array : ndarray) : wav :=
  {| wav_rate := sample_rate; wav_data := Samples audio_array |}.

(** [round(x)] to an integer: to the nearest, a tie to the even one. *)
Definition round_half_even (x : Q) : Z :=
  let p := Qnum x in
  let d := Z.pos (Qden x) in
  let below := p / d in
  let r := p mod d in
  if 2 * r <? d then below
  else if d <? 2 * r then below + 1
  else if Z.even below then below else below + 1.

(** [round(x, ndigits)]. *)
Definition py_round (x : Q) (ndigits : nat) : Q :=
  let scale := inject_Z (10 ^ Z.of_nat ndigits) in
  (inject_Z (round_half_even (x * scale)) / scale)%Q.

(** The dict that [get_audio_info] returns. *)
Record AudioInfo : Type := {
  info_duration : Q;
  info_sample_rate : Z;
  info_max_amplitude : Q;
  info_samples : Z
}.

(** [get_audio_info].  There is no [try] here: what [np.max] raises on
    an empty array reaches the caller. *)
Definition get_audio_info (audio_array : list Q) : res AudioInfo :=
  let duration :=
    (inject_Z (Z.of_nat (length audio_array)) / inject_Z sample_rate)%Q in
  match np_abs_max audio_array with
  | Raise e => Raise e
  | Ok max_amplitude =>
      Ok {| info_duration := py_round duration 2;
            info_sample_rate := sample_rate;
            info_max_amplitude := py_round max_amplitude 3;
            info_samples := Z.of_nat (length audio_array) |}
  end.

(** *** Vocabulary of the fades *)

(** The value at position [j] of [np.linspace(0, 1, window)] and of
    [np.linspace(1, 0, window)]. *)
Definition ramp_up (window j : Z) : Q :=
  (0 + inject_Z j * ((1 - 0) / inject_Z (window - 1)))%Q.

Definition ramp_down (window j : Z) : Q :=
  (1 + inject_Z j * ((0 - 1) / inject_Z (window - 1)))%Q.

(** Whether the fade-in, and the fade-out, reaches the multiplication and
    carries it out on a sample of [n] amplitudes: both windows pass
    [np.linspace], the sample is longer than the window, and the fade-out
    window is not empty. *)
Definition fade_in_applies (n win wout : Z) : bool :=
  (0 <=? win) && (0 <=? wout) && (win <? n).

Definition fade_out_applies (n win wout : Z) : bool :=
  (0 <=? win) && (0 <? wout) && (wout <? n).

(** What the two fades make of the amplitude [x] at position [i]. *)
Definition faded (n win wout : Z) (i : Z) (x : Q) : Q :=
  let x1 := if fade_in_applies n win wout && (i <? win)
            then (x * ramp_up win i)%Q else x in
  if fade_out_applies n win wout && (n - wout <=? i)
  then (x1 * ramp_down wout (i - (n - wout)))%Q else x1.

End AudioProcessor.

(** ** Generation adapter ([music_generator.py]) *)

Module MusicGenerator.

(** The [transformers] and [torch] calls the adapter makes.  Each answer
    may be a value or an exception and may differ from call to call: the
    [nat] is the number of calls made before. *)
Record Backend : Type := {
  Processor : Type;
  Model : Type;
  Inputs : Type;
  cuda_is_available : bool;
  processor_from_pretrained : nat -> string -> res Processor;
  model_from_pretrained : nat -> string -> res Model;
  model_to : nat -> Model -> string -> res Model;
  (** [processor(text=[prompt], padding=True, return_tensors="pt")] *)
  processor_call : nat -> Processor -> string -> res Inputs;
  inputs_to : nat -> Inputs -> string -> res Inputs;
  (** [model.generate] on the inputs with [max_new_tokens],
      [temperature], [top_k] and [do_sample=True]: a batch of channels of
      samples *)
  model_generate :
    nat -> Model -> Inputs -> Z -> Q -> Z -> res (list (list (list Q)));
  (** [time.time()] *)
  time : nat -> Q;
  (** [f"{x:.2f}"] *)
  format_2f : Q -> string
}.

(** The suffixes that [generate_with_style] appends, in the order of its
    dict literal: each f-string is the prompt followed by one of these. *)
Definition style_suffixes : list (string * string) :=
  [ ("jazz", ", jazz style, smooth, sophisticated, piano, saxophone");
    ("classical", ", classical music, orchestral, elegant, symphonic");
    ("electronic", ", electronic music, synthesizer, beats, modern");
    ("rock", ", rock music, guitar, drums, energetic");
    ("ambient", ", ambient music, atmospheric, peaceful, ethereal");
    ("pop", ", pop music, catchy, melodic, upbeat");
    ("blues", ", blues music, soulful, guitar, emotional");
    ("folk", ", folk music, acoustic, traditional, storytelling") ].

(** [style_prompts], the dict built from the prompt. *)
Definition style_prompts (prompt : string) : gmap string string :=
  list_to_map (map (fun kv => (kv.1, prompt +:+ kv.2)) style_suffixes).

(** [get_available_models] and [get_music_styles]. *)
Definition get_available_models : list string := ["small"; "medium"; "large"].

Definition get_music_styles : list string :=
  ["general"; "jazz"; "classical"; "electronic"; "rock"; "ambient"; "pop";
   "blues"; "folk"].

Section Adapter.

Variable B : Backend.

(** The fields of [self]; [calls] counts the backend calls made. *)
Record state : Type := {
  device : string;
  processor : option (Processor B);
  model : option (Model B);
  model_loaded : bool;
  calls : nat
}.

(** [__init__]. *)
Definition init : state :=
  {| device := if cuda_is_available B then "cuda" else "cpu";
     processor := None; model := None; model_loaded := false; calls := 0 |}.

Definition gen (A : Type) : Type := stM state A.

(** One backend call. *)
Definition call {A} (f : nat -> res A) : gen A :=
  fun s =>
    (f (calls s),
     {| device := device s; processor := processor s; model := model s;
        model_loaded := model_loaded s; calls := S (calls s) |}).

Definition get {A} (f : state -> A) : gen A := fun s => (Ok (f s), s).

Definition set_processor (p : Processor B) : gen unit :=
  fun s =>
    (Ok tt,
     {| device := device s; processor := Some p; model := model s;
        model_loaded := model_loaded s; calls := calls s |}).

Definition set_model (m : Model B) : gen unit :=
  fun s =>
    (Ok tt,
     {| device := device s; processor := processor s; model := Some m;
        model_loaded := model_loaded s; calls := calls s |}).

Definition set_model_loaded (b : bool) : gen unit :=
  fun s =>
    (Ok tt,
     {| device := device s; processor := processor s; model := model s;
        model_loaded := b; calls := calls s |}).

(** Using an attribute that is still [None] raises. *)
Definition the {A} (o : option A) : gen A :=
  match o with
  | Some a => ret a
  | None => raise (RuntimeError "'NoneType' object is not callable")
  end.

(** [load_model]. *)
Definition load_model (model_size : string) : gen bool :=
  catch
    (let repo := "facebook/musicgen-" +:+ model_size in
     do p <- call (fun n => processor_from_pretrained B n repo);
     set_processor p;;
     do m <- call (fun n => model_from_pretrained B n repo);
     set_model m;;
     do dev <- get device;
     (if decide (dev = "cuda")
      then do m' <- call (fun n => model_to B n m dev); set_model m'
      else ret tt);;
     set_model_loaded true;;
     ret true)
    (fun _ => ret false).

(** [audio_values[0, 0]]. *)
Definition index00 (t : list (list (list Q))) : res (list Q) :=
  match t with
  | (xs :: _) :: _ => Ok xs
  | _ => Raise (IndexError "index 0 is out of bounds")
  end.

(** The [try] block of [generate_music]. *)
Definition generate_music_try (prompt : string) (duration temperature : Q)
    (top_k : Z) : gen (option (list Q) * string) :=
  do start_time <- call (fun n => Ok (time B n));
  let num_tokens := py_int (duration * 50) in
  do proc <- get processor;
  do p <- the proc;
  do inputs <- call (fun n => processor_call B n p prompt);
  do dev <- get device;
  do inputs <- (if decide (dev = "cuda")
                then call (fun n => inputs_to B n inputs dev)
                else ret inputs);
  do mdl <- get model;
  do m <- the mdl;
  do audio_values <-
    call (fun n => model_generate B n m inputs num_tokens temperature top_k);
  do audio_array <- lift (index00 audio_values);
  do end_time <- call (fun n => Ok (time B n));
  let generation_time := (end_time - start_time)%Q in
  ret (Some audio_array,
       "Generated in " +:+ format_2f B generation_time +:+ " seconds").

(** [generate_music]: the load when the model is not loaded yet, then the
    [try] block with its handler. *)
Definition generate_music (prompt : string) (duration temperature : Q)
    (top_k : Z) : gen (option (list Q) * string) :=
  do loaded <- get model_loaded;
  do ready <- (if loaded then ret true else load_model "small");
  if negb ready then ret (None, "Failed to load model")
  else
    catch
      (generate_music_try prompt duration temperature top_k)
      (fun e => ret (None, "Error generating music: " +:+ str_exn e)).

(** [generate_with_style]: [style_prompts.get(style, prompt)], then
    [generate_music]. *)
Definition generate_with_style (prompt style : string)
    (duration temperature : Q) (top_k : Z) : gen (option (list Q) * string) :=
  let enhanced_prompt := default prompt (style_prompts prompt !! style) in
  generate_music enhanced_prompt duration temperature top_k.

(** The loop of [generate_multiple], with [n] rounds to go. *)
Fixpoint generate_multiple_loop (n : nat) (prompt : string)
    (duration temperature : Q) (top_k : Z) (results : list (list Q))
    : gen (list (list Q)) :=
  match n with
  | O => ret results
  | S n' =>
      do r <- generate_music prompt duration temperature top_k;
      let results :=
        match fst r with
        | Some audio => results ++ [audio]
        | None => results
        end in
      generate_multiple_loop n' prompt duration temperature top_k results
  end.

(** [generate_multiple]: [range(num_images)] is empty for a count that is
    not positive.  The keyword arguments are those of [generate_music]. *)
Definition generate_multiple (prompt : string) (num_images : Z)
    (duration temperature : Q) (top_k : Z) : gen (list (list Q)) :=
  generate_multiple_loop (Z.to_nat num_images) prompt duration temperature
    top_k [].

(** [s'] has the device, the handles and the flag of [s], and at least
    as many backend calls behind it. *)
Definition same_handles (s s' : state) : Prop :=
  device s' = device s /\ processor s' = processor s /\
  model s' = model s /\ model_loaded s' = model_loaded s /\
  (calls s <= calls s')%nat.

(** A computation that loads nothing. *)
Definition frames {A} (m : gen A) : Prop :=
  forall s, same_handles s (snd (m s)).

(** The adapter is consistent when a set [model_loaded] comes with both
    handles. *)
Definition consistent (s : state) : Prop :=
  model_loaded s = true -> is_Some (processor s) /\ is_Some (model s).

End Adapter.

(** A backend to run the adapter on: the handles carry no data, loading
    and inference succeed or raise as the two flags say, the clock
    advances by one second a reading, and a duration prints as a
    fixed text. *)
Definition demo_backend (load_ok generate_ok : bool) : Backend :=
  {| Processor := unit; Model := unit; Inputs := string;
     cuda_is_available := false;
     processor_from_pretrained := fun _ _ => Ok tt;
     model_from_pretrained := fun _ _ =>
       if load_ok then Ok tt else Raise (OSError "model files not found");
     model_to := fun _ m _ => Ok m;
     processor_call := fun _ _ text => Ok text;
     inputs_to := fun _ i _ => Ok i;
     model_generate := fun _ _ _ tokens _ _ =>
       if generate_ok then Ok [[ [1 # 2; - (1 # 4)]%Q ]]
       else Raise (RuntimeError "out of memory");
     time := fun n => inject_Z (Z.of_nat n);
     format_2f := fun _ => "4.00" |}.

End MusicGenerator.

(** ** Library store ([export_manager.py]) *)

Module ExportManager.

(** The fields of [self]. *)
Record t : Type := {
  export_path : string;
  metadata_file : string
}.

(** [os.makedirs(p)]. *)
Definition makedirs (p : string) : io unit :=
  fun w =>
    if bool_decide (is_Some (files w !! p)) then
      (Raise (OSError "file exists"), w)
    else if bool_decide (p ∈ no_write w) then
      (Raise (OSError "cannot create directory"), w)
    else (Ok tt, set_files w (<[p := Dir]> (files w))).

(** [ensure_export_directory]. *)
Definition ensure_export_directory (self : t) : io unit :=
  do e <- Fs.exists_ (export_path self);
  if e then ret tt else makedirs (export_path self).

(** [__init__]. *)
Definition init (path : string) : io t :=
  let self := {| export_path := path;
                 metadata_file := Fs.path_join path "music_metadata.json" |} in
  ensure_export_directory self;;
  ret self.

(** The default argument of [__init__]. *)
Definition default_export_path : string := "generated_music".

(** [save_metadata]. *)
Definition save_metadata (self : t) (music_metadata : MusicRecord) : io unit :=
  catch
    (do e <- Fs.exists_ (metadata_file self);
     do all_metadata <- (if e then Fs.read_json (metadata_file self)
                         else ret []);
     Fs.write_file (metadata_file self)
       (JsonFile (all_metadata ++ [music_metadata])))
    (fun _ => ret tt).

(** [save_music_file].  [now] is [datetime.now().strftime("%Y%m%d_%H%M%S")],
    the reading of the clock.  [metadata], when given, is never an empty
    dict, so [if metadata:] is [if metadata is not None]. *)
Definition save_music_file (self : t) (audio_array : ndarray)
    (prompt_text : string) (metadata : option ExtraMetadata) (now : string)
    : io (option string) :=
  catch
    (let timestamp := now in
     let filename := "music_" +:+ timestamp +:+ ".wav" in
     let filepath := Fs.path_join (export_path self) filename in
     do saved <- AudioProcessor.save_audio audio_array filepath None;
     if saved then
       do size <- Fs.getsize filepath;
       let music_metadata :=
         {| filename := filename; prompt := prompt_text;
            timestamp := timestamp; filepath := filepath;
            file_size := size; extra := metadata |} in
       save_metadata self music_metadata;;
       ret (Some filepath)
     else ret None)
    (fun _ => ret None).

(** The loop of [load_music_library] that keeps the entries whose file
    exists. *)
Fixpoint valid_entries (metadata_list : list MusicRecord)
    : io (list MusicRecord) :=
  match metadata_list with
  | [] => ret []
  | metadata :: rest =>
      do e <- Fs.exists_ (filepath metadata);
      do valid <- valid_entries rest;
      ret (if e then metadata :: valid else valid)
  end.

(** [load_music_library]. *)
Definition load_music_library (self : t) : io (list MusicRecord) :=
  catch
    (do e <- Fs.exists_ (metadata_file self);
     if negb e then ret []
     else
       do metadata_list <- Fs.read_json (metadata_file self);
       valid_entries metadata_list)
    (fun _ => ret []).

(** [delete_music_file]. *)
Definition delete_music_file (self : t) (path : string) : io bool :=
  catch
    (do e <- Fs.exists_ path;
     (if e then Fs.remove path else ret tt);;
     do all_metadata <- load_music_library self;
     let updated_metadata :=
       filter (fun m => filepath m ≠ path) all_metadata in
     Fs.write_file (metadata_file self) (JsonFile updated_metadata);;
     ret true)
    (fun _ => ret false).

(** [a > b] on the timestamp strings: Python orders strings by code
    point, character by character. *)
Definition ts_gt (a b : MusicRecord) : bool :=
  String.ltb (timestamp b) (timestamp a).

(** [sorted(l, key=lambda x: x['timestamp'], reverse=True)].  Python's
    sort is stable, also with [reverse=True]: records with equal keys stay
    in their order in [l].  That fixes the result, which this insertion
    sort computes. *)
Fixpoint insert_desc (x : MusicRecord) (l : list MusicRecord)
    : list MusicRecord :=
  match l with
  | [] => [x]
  | y :: rest => if ts_gt y x then y :: insert_desc x rest else x :: y :: rest
  end.

Definition sorted_desc (l : list MusicRecord) : list MusicRecord :=
  foldr insert_desc [] l.

(** [get_recent_music]: [l[:limit]] keeps the elements before the slice
    bound. *)
Definition get_recent_music (self : t) (limit : Z) : io (list MusicRecord) :=
  do all_music <- load_music_library self;
  let ordered := sorted_desc all_music in
  ret (take (slice_index limit (length ordered)) ordered).

(** The default of the signature. *)
Definition default_limit : Z := 10.

(** [os.makedirs(p, exist_ok=True)]. *)
Definition makedirs_exist_ok (p : string) : io unit :=
  fun w =>
    match files w !! p with
    | Some Dir => (Ok tt, w)
    | Some _ => (Raise (OSError "file exists"), w)
    | None =>
        if bool_decide (p ∈ no_write w) then
          (Raise (OSError "cannot create directory"), w)
        else (Ok tt, set_files w (<[p := Dir]> (files w)))
    end.

Fixpoint has_slash (s : string) : bool :=
  match s with
  | EmptyString => false
  | String c rest => bool_decide (c = "/"%char) || has_slash rest
  end.

(** [os.path.basename(p)]: what follows the last slash. *)
Fixpoint basename (p : string) : string :=
  match p with
  | EmptyString => EmptyString
  | String c rest =>
      if has_slash rest then basename rest
      else if bool_decide (c = "/"%char) then rest
      else p
  end.

(** [os.path.join(a, b)]: an absolute [b] stands alone. *)
Definition os_path_join (a b : string) : string :=
  match b with
  | String "/" _ => b
  | _ => Fs.path_join a b
  end.

(** [shutil.copy2(src, dst)]: a directory as destination takes the file
    under its own name; copying a file onto itself raises, and so do a
    source that is missing or is a directory and a destination that
    cannot be written. *)
Definition copy2 (src dst : string) : io unit :=
  fun w =>
    let dst := if Fs.is_dir (files w !! dst)
               then os_path_join dst (basename src) else dst in
    match files w !! src with
    | None => (Raise (OSError "no such file"), w)
    | Some Dir => (Raise (OSError "is a directory"), w)
    | Some content =>
        if decide (src = dst) then (Raise (OSError "same file"), w)
        else Fs.write_file dst content w
    end.

(** The loop of [export_playlist]. *)
Fixpoint copy_selected (selected_files : list MusicRecord)
    (playlist_dir : string) : io unit :=
  match selected_files with
  | [] => ret tt
  | file_metadata :: rest =>
      let src := filepath file_metadata in
      let dst := os_path_join playlist_dir (filename file_metadata) in
      copy2 src dst;;
      copy_selected rest playlist_dir
  end.

(** [export_playlist].  The manifest is a JSON object, not an array of
    records: to the library code it is a file on which the loop over the
    entries raises, and that is all that is kept of it. *)
Definition export_playlist (self : t) (selected_files : list MusicRecord)
    (playlist_name : string) : io (option string) :=
  catch
    (let playlist_dir :=
       os_path_join (export_path self) ("playlist_" +:+ playlist_name) in
     makedirs_exist_ok playlist_dir;;
     copy_selected selected_files playlist_dir;;
     Fs.write_file (os_path_join playlist_dir "playlist.json") OtherFile;;
     ret (Some playlist_dir))
    (fun _ => ret None).

(** The directory, the manifest and the copies of a playlist. *)
Definition playlist_dir_of (self : t) (playlist_name : string) : string :=
  os_path_join (export_path self) ("playlist_" +:+ playlist_name).

Definition manifest_of (self : t) (playlist_name : string) : string :=
  os_path_join (playlist_dir_of self playlist_name) "playlist.json".

Definition copy_of (self : t) (playlist_name : string) (m : MusicRecord)
    : string :=
  os_path_join (playlist_dir_of self playlist_name) (filename m).

(** *** Vocabulary of the specification *)

(** The records that the sidecar holds: the entries of the array it
    parses to, and none when there is no sidecar or it does not parse. *)
Definition sidecar_records (self : t) (w : world) : list MusicRecord :=
  match files w !! metadata_file self with
  | Some (JsonFile l) => l
  | _ => []
  end.

(** The file that a record references exists. *)
Definition file_present (w : world) (m : MusicRecord) : Prop :=
  Fs.path_exists (filepath m) w = true.

#[global] Instance file_present_dec (w : world) (m : MusicRecord) :
  Decision (file_present w m).
Proof. unfold file_present. apply _. Defined.

(** A record is stale when the file it references is gone. *)
Definition stale (w : world) (m : MusicRecord) : Prop :=
  Fs.path_exists (filepath m) w = false.

(** The library: the sidecar records whose file exists, in sidecar
    order. *)
Definition library (self : t) (w : world) : list MusicRecord :=
  filter (file_present w) (sidecar_records self w).


(** The sidecar can take one more record: it can be opened for writing,
    and it is absent or parses. *)
Definition can_append (self : t) (w : world) : bool :=
  Fs.can_write (metadata_file self) w &&
  match files w !! metadata_file self with
  | None | Some (JsonFile _) => true
  | Some _ => false
  end.

(** The disk once [path] is gone from it. *)
Definition without_file (path : string) (w : world) : world :=
  set_files w (delete path (files w)).

(** The manager that [ExportManager()] builds. *)
Definition default_self : t :=
  {| export_path := default_export_path;
     metadata_file :=
       Fs.path_join default_export_path "music_metadata.json" |}.

(** The path, the audio file and the record of a save at [now]. *)
Definition saved_path (self : t) (now : string) : string :=
  Fs.path_join (export_path self) ("music_" +:+ now +:+ ".wav").

Definition saved_wav (audio_array : ndarray) : option wav :=
  match AudioProcessor.first_channel audio_array with
  | Ok xs =>
      match np_abs_max xs with
      | Ok peak =>
          Some {| wav_rate := AudioProcessor.sample_rate;
                  wav_data := AudioProcessor.normalize xs peak |}
      | Raise _ => None
      end
  | Raise _ => None
  end.

Definition saved_record (self : t) (prompt_text : string)
    (metadata : option ExtraMetadata) (now : string) (f : wav) : MusicRecord :=
  {| filename := "music_" +:+ now +:+ ".wav";
     prompt := prompt_text;
     timestamp := now;
     filepath := saved_path self now;
     file_size := Fs.wav_bytes f;
     extra := metadata |}.

(** A manager as [__init__] builds it: the sidecar is
    [music_metadata.json] in the export directory. *)
Definition standard (self : t) : Prop :=
  metadata_file self = Fs.path_join (export_path self) "music_metadata.json".

(** The disk with [content] written at [path]. *)
Definition with_file (path : string) (content : node) (w : world) : world :=
  set_files w (<[path := content]> (files w)).

(** What a call may do to the disk when it is confined to the directory
    [d]: write at paths that start with [d], never remove a path, never
    replace a directory, and never change what the system refuses. *)
Definition confined (d : string) (w w' : world) : Prop :=
  (forall p, String.prefix d p = false -> files w' !! p = files w !! p) /\
  (forall p, is_Some (files w !! p) -> is_Some (files w' !! p)) /\
  (forall p, files w !! p = Some Dir -> files w' !! p = Some Dir) /\
  no_write w' = no_write w /\ no_remove w' = no_remove w.

(** The directory [d] can take copies: no path that starts with [d],
    other than [d] itself, is a directory, and the system refuses no
    write at such a path. *)
Definition playlist_ready (d : string) (w : world) : Prop :=
  (forall p, String.prefix d p = true -> p <> d -> files w !! p <> Some Dir) /\
  (forall p, String.prefix d p = true -> p ∉ no_write w).

(** A record that [export_playlist] can copy into [d]: its file exists
    and is not a directory, its path does not start with [d], and its
    file name is not empty and does not start with a slash. *)
Definition exportable (d : string) (w : world) (m : MusicRecord) : Prop :=
  (exists content, files w !! filepath m = Some content /\ content <> Dir) /\
  String.prefix d (filepath m) = false /\
  String.prefix "/" (filename m) = false /\
  filename m <> "".

(** *** A library to run the store on *)

(** The record that [save_music_file] writes for a two-amplitude sample
    saved at [ts] with no extra metadata. *)
Definition record_at (ts : string) : MusicRecord :=
  {| filename := "music_" +:+ ts +:+ ".wav";
     prompt := "calm piano";
     timestamp := ts;
     filepath := "generated_music/music_" +:+ ts +:+ ".wav";
     file_size := 48;
     extra := None |}.

Definition tone : node :=
  WavFile {| wav_rate := 32000;
             wav_data := Samples (Arr1 [1; - (1 # 2)]%Q) |}.

(** A library of three records; the audio file of the first one has
    been removed behind the back of the store. *)
Definition stale_world : world :=
  {| files :=
       list_to_map
         [ ("generated_music", Dir);
           ("generated_music/music_metadata.json",
            JsonFile [record_at "20240101_000001";
                      record_at "20240101_000002";
                      record_at "20240101_000003"]);
           ("generated_music/music_20240101_000002.wav", tone);
           ("generated_music/music_20240101_000003.wav", tone) ];
     no_write := ∅; no_remove := ∅ |}.

(** Three saves, one second apart, into a fresh export directory. *)
Definition three_saves : io (list (option string)) :=
  do self <- init default_export_path;
  do p1 <- save_music_file self (Arr1 [1; - (1 # 2)]%Q) "calm piano" None
             "20240101_000001";
  do p2 <- save_music_file self (Arr1 [1; - (1 # 2)]%Q) "calm piano" None
             "20240101_000002";
  do p3 <- save_music_file self (Arr1 [1; - (1 # 2)]%Q) "calm piano" None
             "20240101_000003";
  ret [p1; p2; p3].

Definition saved_three : world := snd (three_saves empty_world).

(** An export directory whose sidecar cannot be opened for writing. *)
Definition readonly_sidecar_world : world :=
  {| files := {["generated_music" := Dir]};
     no_write := {["generated_music/music_metadata.json"]};
     no_remove := ∅ |}.

End ExportManager.

(** ** The compose flow ([app.py]) *)

Module App.

(** The prompt and the style as the compose tab hands them to the
    adapter: the prompt enhanced by the catalog when the box is ticked,
    and the selected style once more. *)
Definition compose (B : MusicGenerator.Backend) (prompt selected_style : string)
    (use_enhancement : bool) (duration temperature : Q) (top_k : Z)
    : MusicGenerator.gen B (option (list Q) * string) :=
  let enhanced_prompt :=
    MusicStyles.get_style_prompt prompt selected_style in
  let final_prompt := if use_enhancement then enhanced_prompt else prompt in
  MusicGenerator.generate_with_style B final_prompt selected_style
    duration temperature top_k.

End App.

(** * Properties *)

(** ** Strings *)





(** ** Style catalog *)

Section StyleCatalog.

Import MusicStyles.



(** The six catalog entries, spelled out. *)
Lemma get_style_prompt_catalog (p : string) :
  get_style_prompt p "jazz" = p +:+ ", jazz, swing, blues, sophisticated" /\
  get_style_prompt p "classical"
    = p +:+ ", classical, orchestral, symphony, elegant" /\
  get_style_prompt p "electronic"
    = p +:+ ", electronic, synth, digital, energetic" /\
  get_style_prompt p "rock" = p +:+ ", rock, guitar, drums, energetic" /\
  get_style_prompt p "ambient"
    = p +:+ ", ambient, atmospheric, peaceful, peaceful" /\
  get_style_prompt p "pop" = p +:+ ", pop, catchy, melodic, upbeat".
Proof. repeat split. Qed.

Lemma get_all_styles_order :
  get_all_styles = ["jazz"; "classical"; "electronic"; "rock"; "ambient"; "pop"].
Proof. reflexivity. Qed.

End StyleCatalog.

(** ** Fades *)

Section Fades.

Import AudioProcessor.

Lemma linspace_ok (start stop : Q) (num : Z) :
  0 <= num ->
  exists v, linspace start stop num = Ok v /\ length v = Z.to_nat num.
Proof.
  intros Hnum. unfold linspace.
  destruct (Z.ltb_spec num 0) as [Hlt|_]; [lia|].
  eexists. split; [reflexivity|].
  by rewrite length_map, length_seqZ.
Qed.

(** Replacing a stretch of an array by one of the same length leaves the
    positions outside it as they were. *)
Lemma splice_outside (a mid : list Q) (lo t i : nat) :
  length mid = length (take t (drop lo a)) ->
  (i < lo \/ lo + length mid <= i)%nat ->
  (take lo a ++ mid ++ drop (lo + length mid) a) !! i = a !! i.
Proof.
  intros Hmid Hi.
  rewrite length_take, length_drop in Hmid.
  destruct (decide (i < length a)%nat) as [Hia|Hia].
  - destruct Hi as [Hi|Hi].
    + rewrite lookup_app_l by (rewrite length_take; lia).
      by rewrite lookup_take_lt.
    + rewrite lookup_app_r by (rewrite length_take; lia).
      rewrite length_take, Nat.min_l by lia.
      rewrite lookup_app_r by lia.
      rewrite lookup_drop. f_equal. lia.
  - rewrite (lookup_ge_None_2 a) by lia.
    apply lookup_ge_None_2.
    rewrite !length_app, length_take, length_drop. lia.
Qed.

(** The shape of a successful [a[lo:hi] *= v]. *)
Lemma imul_slice_inv (a : list Q) (lo hi : nat) (v b : list Q) :
  imul_slice a lo hi v = Ok b ->
  exists mid,
    length mid = length (take (hi - lo) (drop lo a)) /\
    b = take lo a ++ mid ++ drop (lo + length mid) a.
Proof.
  unfold imul_slice.
  destruct (decide (length v = length (take (hi - lo) (drop lo a))))
    as [Hv|Hv].
  - intros [= <-].
    exists (zip_with Qmult (take (hi - lo) (drop lo a)) v).
    rewrite length_zip_with, Hv, Nat.min_id. done.
  - destruct v as [|c [|]]; [done| |done].
    intros [= <-].
    exists (map (fun x => (x * c)%Q) (take (hi - lo) (drop lo a))).
    rewrite length_map. done.
Qed.

(** [a[lo:hi] *= v] changes nothing outside [lo .. hi). *)
Lemma imul_slice_outside (a : list Q) (lo hi : nat) (v b : list Q) (i : nat) :
  imul_slice a lo hi v = Ok b ->
  (i < lo \/ hi <= i)%nat ->
  b !! i = a !! i.
Proof.
  intros (mid & Hmid & ->)%imul_slice_inv Hi.
  apply (splice_outside a mid lo (hi - lo) i Hmid).
  rewrite Hmid, length_take. lia.
Qed.

Lemma imul_slice_length (a : list Q) (lo hi : nat) (v b : list Q) :
  imul_slice a lo hi v = Ok b -> length b = length a.
Proof.
  intros (mid & Hmid & ->)%imul_slice_inv.
  rewrite !length_app, length_take, length_drop.
  rewrite length_take, length_drop in Hmid. lia.
Qed.

(** An operand of the wrong length makes the update raise. *)
Lemma imul_slice_all_empty (a : list Q) :
  a <> [] -> exists e, imul_slice a 0 (length a) [] = Raise e.
Proof.
  intros Ha. unfold imul_slice.
  rewrite Nat.sub_0_r, drop_0, firstn_all.
  destruct (decide (length (@nil Q) = length a)) as [Hv|Hv]; [|eauto].
  destruct a; [done|discriminate].
Qed.

(** The array that [add_fade_effects] returns has the length of its
    argument. *)
Lemma add_fade_effects_length (a : list Q) (fi fo : Q) :
  length (add_fade_effects a fi fo) = length a.
Proof.
  unfold add_fade_effects, add_fade_effects_try.
  destruct (linspace 0 1 _) as [fade_in|]; [|done].
  destruct (linspace 1 0 _) as [fade_out|]; [|done].
  destruct (_ >? _).
  - destruct (imul_slice a _ _ fade_in) as [a1|] eqn:E1; [|done].
    apply imul_slice_length in E1.
    destruct (_ >? _); [|done].
    destruct (imul_slice a1 _ _ fade_out) as [a2|] eqn:E2; [|done].
    apply imul_slice_length in E2. simpl. congruence.
  - destruct (_ >? _); [|done].
    destruct (imul_slice a _ _ fade_out) as [a2|] eqn:E2; [|done].
    by apply imul_slice_length in E2.
Qed.

(** A sample no longer than the fade-in window: the fade-in is skipped,
    so every position that the fade-out ramp does not cover is returned
    as it was. *)
Lemma fade_in_skipped (a : list Q) (fi fo : Q) (i : nat) :
  Z.of_nat (length a) <= fade_window fi ->
  Z.of_nat (length a) <= fade_window fo
    \/ Z.of_nat i < Z.of_nat (length a) - fade_window fo ->
  add_fade_effects a fi fo !! i = a !! i.
Proof.
  intros Hin Hi. unfold add_fade_effects, add_fade_effects_try.
  fold (fade_window fi). fold (fade_window fo).
  destruct (linspace 0 1 _) as [fade_in|]; [|done].
  destruct (linspace 1 0 (fade_window fo)) as [fade_out|] eqn:Eout; [|done].
  destruct (Z.gtb_spec (Z.of_nat (length a)) (fade_window fi)) as [?|_]; [lia|].
  destruct (Z.gtb_spec (Z.of_nat (length a)) (fade_window fo)) as [Hgt|_];
    [|done].
  destruct (imul_slice a _ _ fade_out) as [a2|] eqn:E2; [|done].
  simpl. apply (imul_slice_outside _ _ _ _ _ _ E2). left.
  unfold linspace in Eout.
  destruct (Z.ltb_spec (fade_window fo) 0) as [|Hnn]; [done|].
  destruct (decide (fade_window fo = 0)) as [Hz|Hnz].
  - (* a window of zero samples: the operand is empty and the update raises *)
    exfalso. rewrite Hz in *. injection Eout as <-.
    change (imul_slice a (slice_index 0 (length a)) (length a) [] = Ok a2) in E2.
    replace (slice_index 0 (length a)) with 0%nat in E2
      by (unfold slice_index; simpl; lia).
    destruct (imul_slice_all_empty a) as [e He]; [by intros ->|].
    by rewrite He in E2.
  - unfold slice_index.
    destruct (Z.ltb_spec (- fade_window fo) 0) as [Hneg|Hzero]; lia.
Qed.

(** A sample no longer than the fade-out window: the fade-out is
    skipped, so every position that the fade-in ramp does not cover is
    returned as it was. *)
Lemma fade_out_skipped (a : list Q) (fi fo : Q) (i : nat) :
  Z.of_nat (length a) <= fade_window fo ->
  Z.of_nat (length a) <= fade_window fi \/ fade_window fi <= Z.of_nat i ->
  add_fade_effects a fi fo !! i = a !! i.
Proof.
  intros Hout Hi. unfold add_fade_effects, add_fade_effects_try.
  fold (fade_window fi). fold (fade_window fo).
  destruct (linspace 0 1 (fade_window fi)) as [fade_in|] eqn:Ein; [|done].
  destruct (linspace 1 0 _) as [fade_out|]; [|done].
  destruct (Z.gtb_spec (Z.of_nat (length a)) (fade_window fo)) as [?|_]; [lia|].
  destruct (Z.gtb_spec (Z.of_nat (length a)) (fade_window fi)) as [Hgt|_];
    [|done].
  destruct (imul_slice a _ _ fade_in) as [a1|] eqn:E1; [|done].
  simpl. apply (imul_slice_outside _ _ _ _ _ _ E1). right.
  unfold linspace in Ein.
  destruct (Z.ltb_spec (fade_window fi) 0) as [|Hnn]; [done|].
  unfold slice_index.
  destruct (Z.ltb_spec (fade_window fi) 0) as [|_]; lia.
Qed.

(** A sample no longer than either window goes through the [try] block
    untouched, and the block does not raise. *)
Lemma both_fades_skipped (a : list Q) (fi fo : Q) :
  Z.of_nat (length a) <= fade_window fi ->
  Z.of_nat (length a) <= fade_window fo ->
  add_fade_effects_try a fi fo = (Ok tt, a).
Proof.
  intros Hin Hout. unfold add_fade_effects_try.
  fold (fade_window fi). fold (fade_window fo).
  destruct (linspace_ok 0 1 (fade_window fi)) as (v1 & -> & _); [lia|].
  destruct (linspace_ok 1 0 (fade_window fo)) as (v2 & -> & _); [lia|].
  destruct (Z.gtb_spec (Z.of_nat (length a)) (fade_window fi)) as [?|_]; [lia|].
  destruct (Z.gtb_spec (Z.of_nat (length a)) (fade_window fo)) as [?|_]; [lia|].
  done.
Qed.


(** How the length of a fade in seconds relates to its window in whole
    samples: a sample shorter than [seconds * 32000] is no longer than
    the window, and a sample of exactly [seconds * 32000] amplitudes has
    the length of the window. *)
Lemma shorter_than_fade (n : nat) (seconds : Q) :
  (inject_Z (Z.of_nat n) < seconds * inject_Z sample_rate)%Q ->
  Z.of_nat n <= fade_window seconds.
Proof.
  unfold fade_window, py_int.
  destruct (seconds * inject_Z sample_rate)%Q as [p q].
  unfold Qlt. cbn [Qnum Qden inject_Z]. intros Hlt.
  rewrite Z.quot_div_nonneg by lia.
  apply Z.div_le_lower_bound; lia.
Qed.


(** C6. A sample shorter than the fade-in window
    ([fade_in_duration * 32000] samples) keeps its start: no fade-in is
    applied, so every position outside the fade-out ramp comes back as it
    was.  A sample shorter than the fade-out window keeps its end: no
    fade-out is applied, so every position outside the fade-in ramp comes
    back as it was.  A sample shorter than both windows comes back
    entirely unchanged, and the [try] block does not raise. *)
Theorem add_fade_effects_short_sample (a : list Q) (fi fo : Q) :
  let n := Z.of_nat (length a) in
  ((inject_Z n < fi * inject_Z sample_rate)%Q ->
     forall i : nat,
       n <= fade_window fo \/ Z.of_nat i < n - fade_window fo ->
       add_fade_effects a fi fo !! i = a !! i) /\
  ((inject_Z n < fo * inject_Z sample_rate)%Q ->
     forall i : nat,
       n <= fade_window fi \/ fade_window fi <= Z.of_nat i ->
       add_fade_effects a fi fo !! i = a !! i) /\
  ((inject_Z n < fi * inject_Z sample_rate)%Q ->
   (inject_Z n < fo * inject_Z sample_rate)%Q ->
     add_fade_effects_try a fi fo = (Ok tt, a) /\
     add_fade_effects a fi fo = a).
Proof.
  cbv zeta. split; [|split].
  - intros Hin%shorter_than_fade i Hi. by apply fade_in_skipped.
  - intros Hout%shorter_than_fade i Hi. by apply fade_out_skipped.
  - intros Hin%shorter_than_fade Hout%shorter_than_fade.
    assert (add_fade_effects_try a fi fo = (Ok tt, a)) as E
      by (by apply both_fades_skipped).
    split; [done|]. unfold add_fade_effects. by rewrite E.
Qed.



(** The same on a sample that can be traced by hand: fades of 2^-14 and
    5 * 2^-16 seconds are windows of one and of two samples; a sample of
    two amplitudes has the length of the fade-out window, and its first
    amplitude is faded in. *)
Example add_fade_effects_two_samples :
  fade_window (1 # 16384) = 1 /\ fade_window (5 # 65536) = 2 /\
  Forall2 Qeq (add_fade_effects [1; 1]%Q (1 # 16384) (5 # 65536)) [0; 1]%Q.
Proof. split; [done|]. split; [done|]. by repeat constructor. Qed.

(** Past the window the ramps are applied: five amplitudes, windows of
    two and of three samples. *)
Example add_fade_effects_five_samples :
  Forall2 Qeq
    (add_fade_effects [1; 1; 1; 1; 1]%Q (2 # 32000) (3 # 32000))
    [0; 1; 1; 1 # 2; 0]%Q.
Proof. by repeat constructor. Qed.

End Fades.

(** ** Normalization *)

Section Normalization.

Import AudioProcessor.
Local Open Scope Q_scope.

Lemma qmax_cases (a b : Q) :
  (qmax a b = a /\ b <= a) \/ (qmax a b = b /\ a <= b).
Proof.
  unfold qmax. destruct (Qle_bool a b) eqn:E.
  - right. split; [done|]. by apply Qle_bool_iff.
  - left. split; [done|].
    destruct (Qlt_le_dec b a) as [Hlt|Hle]; [by apply Qlt_le_weak|].
    apply Qle_bool_iff in Hle. congruence.
Qed.

(** The running maximum of [np.max(np.abs(..))]: it bounds what it has
    seen and is one of the values seen. *)
Lemma foldl_qmax_spec (rest : list Q) (m : Q) :
  let p := foldl (fun m y => qmax m (Qabs y)) m rest in
  m <= p /\ Forall (fun y => Qabs y <= p) rest /\
  (p = m \/ Exists (fun y => Qabs y = p) rest).
Proof.
  revert m. induction rest as [|y rest IH]; intros m; cbn [foldl].
  - split; [apply Qle_refl|]. split; [constructor|by left].
  - specialize (IH (qmax m (Qabs y))). cbv zeta in IH.
    destruct IH as (Hm & Hall & Hex).
    destruct (qmax_cases m (Qabs y)) as [[E Hle]|[E Hle]]; rewrite E in *.
    + split; [done|]. split.
      * constructor; [|done]. eapply Qle_trans; eauto.
      * destruct Hex as [->|Hex]; [by left|]. right. by apply Exists_cons_tl.
    + split; [eapply Qle_trans; eauto|]. split.
      * by constructor.
      * right. destruct Hex as [->|Hex];
          [by apply Exists_cons_hd | by apply Exists_cons_tl].
Qed.

(** The peak bounds every amplitude and is the magnitude of one. *)
Lemma np_abs_max_spec (xs : list Q) (p : Q) :
  np_abs_max xs = Ok p ->
  Forall (fun x => Qabs x <= p) xs /\ Exists (fun x => Qabs x = p) xs.
Proof.
  destruct xs as [|x rest]; [done|]. intros [= <-].
  destruct (foldl_qmax_spec rest (Qabs x)) as (Hm & Hall & Hex).
  cbv zeta in *. split.
  - by constructor.
  - destruct Hex as [->|Hex];
      [by apply Exists_cons_hd | by apply Exists_cons_tl].
Qed.

Lemma np_abs_max_nonempty (xs : list Q) :
  xs <> [] -> exists p, np_abs_max xs = Ok p.
Proof. destruct xs; [done|]. eauto. Qed.

(** A sample that is not silent has a positive peak. *)
Lemma np_abs_max_positive (xs : list Q) :
  Exists (fun x => ~ x == 0) xs ->
  exists p, np_abs_max xs = Ok p /\ 0 < p.
Proof.
  intros Hex.
  destruct (np_abs_max_nonempty xs) as [p Hp].
  { intros ->. by apply Exists_nil in Hex. }
  exists p. split; [done|].
  apply np_abs_max_spec in Hp as [Hall _].
  apply Exists_exists in Hex as (x & Hx & Hnz).
  rewrite Forall_forall in Hall. specialize (Hall x Hx).
  eapply Qlt_le_trans; [|exact Hall].
  destruct (Qle_lt_or_eq 0 (Qabs x) (Qabs_nonneg x)) as [?|Heq]; [done|].
  exfalso. apply Hnz.
  assert (Qabs x <= 0) as Hle by (rewrite <- Heq; apply Qle_refl).
  apply Qabs_Qle_condition in Hle as [Hlo Hhi].
  by apply Qle_antisym.
Qed.

Lemma Qabs_div (x p : Q) : 0 < p -> Qabs (x / p) == Qabs x / p.
Proof.
  intros Hp. unfold Qdiv.
  rewrite Qabs_Qmult, Qabs_Qinv, (Qabs_pos p); [reflexivity|].
  by apply Qlt_le_weak.
Qed.

Lemma Qdiv_self (p : Q) : 0 < p -> p / p == 1.
Proof.
  intros Hp. apply Qmult_inv_r. intros Hz. rewrite Hz in Hp.
  by apply Qlt_irrefl in Hp.
Qed.

(** Dividing by a positive peak brings the peak to one. *)
Lemma normalized_peak (xs : list Q) (p : Q) :
  np_abs_max xs = Ok p -> 0 < p ->
  exists p', np_abs_max (map (fun x => x / p) xs) = Ok p' /\ p' == 1.
Proof.
  intros Hp Hpos.
  destruct (np_abs_max_nonempty (map (fun x => x / p) xs)) as [p' Hp'].
  { destruct xs; done. }
  exists p'. split; [done|].
  apply np_abs_max_spec in Hp as [Hall Hex].
  apply np_abs_max_spec in Hp' as [Hall' Hex'].
  apply Qle_antisym.
  - apply Exists_exists in Hex' as (y & Hy & <-).
    apply list_elem_of_In, in_map_iff in Hy as (x & <- & Hx).
    apply list_elem_of_In in Hx.
    rewrite Forall_forall in Hall. specialize (Hall x Hx).
    rewrite Qabs_div by done. rewrite <- (Qdiv_self p) by done.
    unfold Qdiv. apply Qmult_le_compat_r; [done|].
    apply Qinv_le_0_compat. by apply Qlt_le_weak.
  - apply Exists_exists in Hex as (x & Hx & Hpeak).
    rewrite Forall_forall in Hall'.
    assert (x / p ∈ map (fun x => x / p) xs) as Hin.
    { apply list_elem_of_In, (in_map (fun z => z / p)).
      by apply list_elem_of_In. }
    specialize (Hall' (x / p) Hin).
    rewrite Qabs_div in Hall' by done. rewrite Hpeak in Hall'.
    by rewrite Qdiv_self in Hall'.
Qed.

(** C4, as the code has it. [save_audio] divides the first channel by
    its peak absolute amplitude before it writes: for a sample that is not
    silent and a path that can be written it returns [True] and the file
    holds the divided amplitudes, whose peak is 1.  [create_audio_buffer]
    writes the array it is given as it is, without normalizing. *)
Theorem save_audio_normalizes (audio_array : ndarray) (filename : string)
    (rate : option Z) (w : world) (xs : list Q) :
  first_channel audio_array = Ok xs ->
  Exists (fun x => ~ x == 0) xs ->
  Fs.can_write filename w = true ->
  (exists peak f p,
     np_abs_max xs = Ok peak /\
     f = {| wav_rate := default sample_rate rate;
            wav_data := Samples (Arr1 (map (fun x => x / peak) xs)) |} /\
     save_audio audio_array filename rate w
       = (Ok true, set_files w (<[filename := WavFile f]> (files w))) /\
     wav_peak f = Some p /\ p == 1) /\
  create_audio_buffer audio_array
    = {| wav_rate := sample_rate; wav_data := Samples audio_array |}.
Proof.
  intros Hch Hloud Hw. split; [|done].
  destruct (np_abs_max_positive xs Hloud) as (peak & Hpeak & Hpos).
  destruct (normalized_peak xs peak Hpeak Hpos) as (p & Hp & Hone).
  exists peak. eexists. exists p.
  split; [done|]. split; [reflexivity|]. split.
  - unfold save_audio, catch, bind, lift, Fs.write_file, ret, normalize.
    rewrite Hch, Hpeak, Hw.
    destruct (Qeq_bool peak 0) eqn:Ez; [|done].
    apply Qeq_bool_iff in Ez. rewrite Ez in Hpos.
    by apply Qlt_irrefl in Hpos.
  - unfold wav_peak. cbn. by rewrite Hp.
Qed.

(** The normalization on a sample of two amplitudes, written to an empty
    disk. *)
Lemma save_audio_normalizes_witness :
  (exists peak f p,
     np_abs_max [1 # 2; - (1 # 4)] = Ok peak /\
     f = {| wav_rate := sample_rate;
            wav_data :=
              Samples (Arr1 (map (fun x => x / peak) [1 # 2; - (1 # 4)])) |} /\
     save_audio (Arr1 [1 # 2; - (1 # 4)]) "out.wav" None empty_world
       = (Ok true,
          set_files empty_world
            (<["out.wav" := WavFile f]> (files empty_world))) /\
     wav_peak f = Some p /\ p == 1) /\
  create_audio_buffer (Arr1 [1 # 2; - (1 # 4)])
    = {| wav_rate := sample_rate;
         wav_data := Samples (Arr1 [1 # 2; - (1 # 4)]) |}.
Proof.
  apply (save_audio_normalizes (Arr1 [1 # 2; - (1 # 4)]) "out.wav" None
           empty_world [1 # 2; - (1 # 4)]).
  - reflexivity.
  - apply Exists_cons_hd. discriminate.
  - reflexivity.
Defined.

(** C4, as stated, fails for [create_audio_buffer]: a sample with the one
    amplitude 1/2 is not silent, and the buffer holds that amplitude, so
    the peak of the written audio is 1/2 and not 1. *)
Lemma create_audio_buffer_not_normalized :
  Exists (fun x => ~ x == 0) [1 # 2] /\
  wav_data (create_audio_buffer (Arr1 [1 # 2])) = Samples (Arr1 [1 # 2]) /\
  wav_peak (create_audio_buffer (Arr1 [1 # 2])) = Some (1 # 2) /\
  ~ (1 # 2 == 1).
Proof.
  split; [|split; [|split]].
  - apply Exists_cons_hd. discriminate.
  - reflexivity.
  - reflexivity.
  - discriminate.
Qed.

(** A silent sample: the division is 0/0 for every amplitude, and
    [save_audio] still writes the file and returns [True]. *)
Example save_audio_silent :
  save_audio (Arr1 [0; 0]) "out.wav" None empty_world
  = (Ok true,
     set_files empty_world
       (<["out.wav" := WavFile {| wav_rate := sample_rate;
                                  wav_data := AllNaN 2 |}]> ∅)).
Proof. reflexivity. Qed.

(** An empty sample: [np.max] raises, and [save_audio] returns [False]
    without writing. *)
Example save_audio_empty :
  save_audio (Arr1 []) "out.wav" None empty_world = (Ok false, empty_world).
Proof. reflexivity. Qed.

End Normalization.

(** ** Generation adapter *)

Section GenerationAdapter.

Import MusicGenerator.

Variable B : Backend.

(** A [try] block whose handler returns does not raise. *)
Lemma catch_returns {S A} (m : stM S A) (h : exn -> A) (s : S) :
  exists a s', catch m (fun e => ret (h e)) s = (Ok a, s').
Proof. unfold catch, ret. destruct (m s) as [[a|e] s']; eauto. Qed.

(** [load_model] returns a boolean whatever the backend does. *)
Lemma load_model_returns (model_size : string) (s : state B) :
  exists b s', load_model B model_size s = (Ok b, s').
Proof.
  unfold load_model.
  destruct (catch_returns
    (let repo := "facebook/musicgen-" +:+ model_size in
     do p <- call B (fun n => processor_from_pretrained B n repo);
     set_processor B p;;
     do m <- call B (fun n => model_from_pretrained B n repo);
     set_model B m;;
     do dev <- get B (device B);
     (if decide (dev = "cuda")
      then do m' <- call B (fun n => model_to B n m dev); set_model B m'
      else ret tt);;
     set_model_loaded B true;;
     ret true) (fun _ => false) s) as (b & s' & E).
  exists b, s'. exact E.
Qed.

(** When the processor cannot be fetched the load fails. *)
Lemma load_model_processor_fails (model_size : string) (s : state B) (e : exn) :
  processor_from_pretrained B (calls B s) ("facebook/musicgen-" +:+ model_size)
    = Raise e ->
  fst (load_model B model_size s) = Ok false /\
  model_loaded B (snd (load_model B model_size s)) = model_loaded B s.
Proof.
  intros E. unfold load_model, catch, bind, call. cbv zeta. rewrite E. done.
Qed.

(** When the model cannot be fetched the load fails. *)
Lemma load_model_model_fails (model_size : string) (s : state B)
    (p : Processor B) (e : exn) :
  processor_from_pretrained B (calls B s) ("facebook/musicgen-" +:+ model_size)
    = Ok p ->
  model_from_pretrained B (S (calls B s)) ("facebook/musicgen-" +:+ model_size)
    = Raise e ->
  fst (load_model B model_size s) = Ok false /\
  model_loaded B (snd (load_model B model_size s)) = model_loaded B s.
Proof.
  intros Ep Em. unfold load_model, catch, bind, call, set_processor.
  cbv zeta. rewrite Ep. cbn. rewrite Em. done.
Qed.

(** C3. [generate_music] returns for every prompt, every parameter set,
    every state of the adapter and every behaviour of the backend: it
    never raises.  When the model is not loaded and the load fails it
    returns [(None, "Failed to load model")].  When the model is loaded,
    or the load succeeds, an exception [e] of the inference block is
    returned as [(None, "Error generating music: " + str(e))], and a
    result of the block is returned as it is. *)
Theorem generate_music_never_raises (prompt : string)
    (duration temperature : Q) (top_k : Z) (s : state B) :
  (exists out s',
     generate_music B prompt duration temperature top_k s = (Ok out, s')) /\
  (forall s1,
     model_loaded B s = false ->
     load_model B "small" s = (Ok false, s1) ->
     generate_music B prompt duration temperature top_k s
       = (Ok (None, "Failed to load model"), s1)) /\
  (forall s1 s2 e,
     model_loaded B s = true /\ s1 = s
       \/ model_loaded B s = false /\ load_model B "small" s = (Ok true, s1) ->
     generate_music_try B prompt duration temperature top_k s1 = (Raise e, s2) ->
     generate_music B prompt duration temperature top_k s
       = (Ok (None, "Error generating music: " +:+ str_exn e), s2)) /\
  (forall s1 s2 out,
     model_loaded B s = true /\ s1 = s
       \/ model_loaded B s = false /\ load_model B "small" s = (Ok true, s1) ->
     generate_music_try B prompt duration temperature top_k s1 = (Ok out, s2) ->
     generate_music B prompt duration temperature top_k s = (Ok out, s2)).
Proof.
  unfold generate_music, bind, get.
  destruct (model_loaded B s) eqn:Hloaded.
  - (* already loaded *)
    cbn [ret negb]. repeat split.
    + apply catch_returns.
    + done.
    + intros s1 s2 e [[_ ->]|[? _]] Htry; [|done].
      unfold catch, ret. by rewrite Htry.
    + intros s1 s2 out [[_ ->]|[? _]] Htry; [|done].
      unfold catch. by rewrite Htry.
  - destruct (load_model_returns "small" s) as (b & s1 & Hload).
    rewrite Hload. destruct b; cbn [negb].
    + repeat split.
      * apply catch_returns.
      * intros s1' _ [=].
      * intros s1' s2 e [[? _]|[_ [= <-]]] Htry; [done|].
        unfold catch, ret. by rewrite Htry.
      * intros s1' s2 out [[? _]|[_ [= <-]]] Htry; [done|].
        unfold catch. by rewrite Htry.
    + repeat split.
      * unfold ret. eauto.
      * by intros s1' _ [= <-].
      * intros s1' s2 e [[? _]|[_ [=]]]. done.
      * intros s1' s2 out [[? _]|[_ [=]]]. done.
Qed.

End GenerationAdapter.

(** A load that fails, from a fresh adapter. *)
Example generate_music_load_fails :
  fst (MusicGenerator.generate_music (MusicGenerator.demo_backend false true)
         "calm piano" 30 1 250
         (MusicGenerator.init (MusicGenerator.demo_backend false true)))
  = Ok (None, "Failed to load model").
Proof. reflexivity. Qed.

(** An inference that raises, from a fresh adapter. *)
Example generate_music_inference_fails :
  fst (MusicGenerator.generate_music (MusicGenerator.demo_backend true false)
         "calm piano" 30 1 250
         (MusicGenerator.init (MusicGenerator.demo_backend true false)))
  = Ok (None, "Error generating music: out of memory").
Proof. reflexivity. Qed.

(** A generation that succeeds, from a fresh adapter. *)
Example generate_music_succeeds :
  fst (MusicGenerator.generate_music (MusicGenerator.demo_backend true true)
         "calm piano" 30 1 250
         (MusicGenerator.init (MusicGenerator.demo_backend true true)))
  = Ok (Some [1 # 2; - (1 # 4)]%Q, "Generated in 4.00 seconds").
Proof. reflexivity. Qed.

(** ** Order of timestamps *)









(** ** The sort of [get_recent_music] *)

Section RecentSort.

Import ExportManager.









End RecentSort.

(** ** Library store *)

Lemma filter_all {A} (P : A -> Prop) `{!forall x, Decision (P x)}
    (l : list A) :
  Forall P l -> filter P l = l.
Proof.
  induction 1 as [|x l Hx _ IH]; [done|]. by rewrite filter_cons_True, IH.
Qed.

Lemma filter_length_all {A} (P : A -> Prop) `{!forall x, Decision (P x)}
    (l : list A) :
  length (filter P l) = length l -> Forall P l.
Proof.
  intros Hlen. apply Forall_forall. intros x Hx.
  destruct (decide (P x)) as [|Hn]; [done|].
  pose proof (length_filter_lt P l x Hx Hn). lia.
Qed.

Section LibraryStore.

Import ExportManager.

Variable self : ExportManager.t.

(** The loop keeps exactly the entries whose file exists and leaves the
    disk alone. *)
Lemma valid_entries_filter (l : list MusicRecord) (w : world) :
  valid_entries l w = (Ok (filter (file_present w) l), w).
Proof.
  induction l as [|m l IH]; [done|].
  cbn [valid_entries]. unfold bind, Fs.exists_ in *. rewrite IH.
  unfold ret. rewrite filter_cons. unfold file_present at 2.
  destruct (Fs.path_exists (filepath m) w) eqn:E.
  - by rewrite decide_True by exact E.
  - by rewrite decide_False by (unfold file_present; congruence).
Qed.

(** [load_music_library] returns the library and leaves the disk alone. *)
Lemma load_music_library_spec (w : world) :
  load_music_library self w = (Ok (library self w), w).
Proof.
  unfold load_music_library, library, sidecar_records, catch, bind,
    Fs.exists_, Fs.read_json, Fs.path_exists.
  destruct (files w !! metadata_file self) as [n|] eqn:E.
  - rewrite bool_decide_eq_true_2 by eauto. cbn [negb]. rewrite E.
    destruct n; try done. by rewrite valid_entries_filter.
  - rewrite bool_decide_eq_false_2 by (by intros [? ?]). done.
Qed.

(** C8. For every state of the disk, [load_music_library] returns, its
    result is exactly the records of the sidecar whose file exists, in
    the order of the sidecar, and the disk after the call is the disk
    before it: the sidecar is not rewritten and holds the same records,
    the pruned ones included. *)
Theorem load_music_library_reads_only (w : world) :
  exists l w',
    load_music_library self w = (Ok l, w') /\
    l = filter (file_present w) (sidecar_records self w) /\
    (forall m, m ∈ l <-> m ∈ sidecar_records self w /\ file_present w m) /\
    w' = w /\
    files w' !! metadata_file self = files w !! metadata_file self /\
    sidecar_records self w' = sidecar_records self w.
Proof.
  exists (library self w), w. rewrite load_music_library_spec.
  split; [done|]. split; [done|]. split; [|done].
  intros m. unfold library. rewrite list_elem_of_filter. tauto.
Qed.

Lemma set_files_id (w : world) : set_files w (files w) = w.
Proof. by destruct w. Qed.

Lemma without_file_absent (path : string) (w : world) :
  Fs.path_exists path w = false -> without_file path w = w.
Proof.
  unfold Fs.path_exists, without_file. intros E.
  apply bool_decide_eq_false in E.
  rewrite delete_id; [apply set_files_id|].
  destruct (files w !! path) eqn:E'; [|done]. destruct E. eauto.
Qed.

Lemma path_exists_without_file (path p : string) (w : world) :
  Fs.path_exists p (without_file path w)
  = bool_decide (p <> path) && Fs.path_exists p w.
Proof.
  unfold Fs.path_exists, without_file. cbn.
  destruct (decide (p = path)) as [->|Hne].
  - rewrite lookup_delete_eq, bool_decide_eq_false_2 by (by intros []).
    by rewrite bool_decide_eq_false_2 by auto.
  - rewrite lookup_delete_ne by done.
    by rewrite (bool_decide_eq_true_2 (p <> path)).
Qed.

(** Removing a file other than the sidecar keeps the sidecar records. *)
Lemma sidecar_records_without_file (path : string) (w : world) :
  path <> metadata_file self ->
  sidecar_records self (without_file path w) = sidecar_records self w.
Proof.
  intros Hne. unfold sidecar_records, without_file. cbn.
  by rewrite lookup_delete_ne.
Qed.

(** The library once a file other than the sidecar is gone: the records
    of that file go with it. *)
Lemma library_without_file (path : string) (w : world) :
  path <> metadata_file self ->
  library self (without_file path w)
  = filter (fun m => filepath m <> path) (library self w).
Proof.
  intros Hne. unfold library. rewrite sidecar_records_without_file by done.
  rewrite list_filter_filter. apply list_filter_iff. intros m.
  unfold file_present. rewrite path_exists_without_file.
  rewrite andb_true_iff, bool_decide_eq_true. tauto.
Qed.

(** What [delete_music_file] does, case by case: a file that exists and
    cannot be removed gives [False]; a sidecar that cannot be written
    gives [False] after the file is gone; otherwise the sidecar is
    rewritten from the library read after the removal. *)
Lemma delete_music_file_spec (path : string) (w : world) :
  delete_music_file self path w =
  if Fs.path_exists path w && negb (Fs.can_remove path w) then (Ok false, w)
  else
    let w1 := without_file path w in
    if Fs.can_write (metadata_file self) w1 then
      (Ok true,
       set_files w1
         (<[metadata_file self :=
              JsonFile (filter (fun m => filepath m <> path)
                          (library self w1))]> (files w1)))
    else (Ok false, w1).
Proof.
  unfold delete_music_file, catch, bind, Fs.exists_, Fs.remove, ret.
  destruct (Fs.path_exists path w) eqn:Ex; cbn [andb].
  - destruct (Fs.can_remove path w); cbn [negb]; [|done].
    fold (without_file path w). rewrite load_music_library_spec.
    unfold Fs.write_file.
    by destruct (Fs.can_write (metadata_file self) (without_file path w)).
  - rewrite (without_file_absent path w Ex).
    rewrite load_music_library_spec. unfold Fs.write_file.
    by destruct (Fs.can_write (metadata_file self) w).
Qed.

Lemma sidecar_records_written (w : world) (l : list MusicRecord) :
  sidecar_records self
    (set_files w (<[metadata_file self := JsonFile l]> (files w))) = l.
Proof. unfold sidecar_records. cbn. by rewrite lookup_insert_eq. Qed.

(** The records left after the removal were in the sidecar before. *)
Lemma sidecar_records_without_file_subset (path : string) (w : world)
    (m : MusicRecord) :
  m ∈ sidecar_records self (without_file path w) ->
  m ∈ sidecar_records self w.
Proof.
  destruct (decide (path = metadata_file self)) as [->|Hne].
  - unfold sidecar_records, without_file. cbn.
    rewrite lookup_delete_eq. by intros ?%not_elem_of_nil.
  - by rewrite sidecar_records_without_file.
Qed.

(** C9. After a [delete_music_file] that returns [True] the sidecar is
    the array of the records that [load_music_library] gave after the
    removal, without those of the deleted path.  So every record left in
    the sidecar was in the sidecar before, is not a record of the deleted
    path, and references a file that existed when the call was made and
    still exists after it; and no stale record of the old sidecar is
    left, whatever path it references. *)
Theorem delete_music_file_prunes (path : string) (w w' : world) :
  delete_music_file self path w = (Ok true, w') ->
  exists l,
    files w' !! metadata_file self = Some (JsonFile l) /\
    l = filter (fun m => filepath m <> path)
          (library self (without_file path w)) /\
    (forall m, m ∈ l ->
       m ∈ sidecar_records self w /\ filepath m <> path /\
       file_present w m /\ file_present w' m) /\
    (forall m, m ∈ sidecar_records self w -> stale w m -> m ∉ l).
Proof.
  rewrite delete_music_file_spec.
  destruct (_ && _); [done|]. cbv zeta.
  destruct (Fs.can_write _ _); [|done]. intros [= <-].
  eexists. split; [cbn; apply lookup_insert_eq|]. split; [done|].
  assert (Hin : forall m,
    m ∈ filter (fun m => filepath m <> path)
          (library self (without_file path w)) ->
    m ∈ sidecar_records self w /\ filepath m <> path /\ file_present w m).
  { intros m [Hne Hm]%list_elem_of_filter.
    apply list_elem_of_filter in Hm as [Hp Hm].
    split; [by eapply sidecar_records_without_file_subset|]. split; [done|].
    unfold file_present in *. rewrite path_exists_without_file in Hp.
    by apply andb_true_iff in Hp as [_ ?]. }
  split.
  - intros m Hm. destruct (Hin m Hm) as (Hs & Hne & Hp).
    repeat split; try done.
    apply list_elem_of_filter in Hm as [_ Hm].
    apply list_elem_of_filter in Hm as [Hp1 _].
    unfold file_present, Fs.path_exists in *. cbn in *.
    apply bool_decide_eq_true in Hp1. apply bool_decide_eq_true.
    destruct (decide (metadata_file self = filepath m)) as [<-|Hd].
    + rewrite lookup_insert_eq. eauto.
    + by rewrite lookup_insert_ne.
  - intros m _ Hstale Hm. destruct (Hin m Hm) as (_ & _ & Hp).
    unfold stale, file_present in *. congruence.
Qed.

(** C2, as the code has it. Deleting a path that no library record
    references, and that is not the sidecar: unless the file cannot be
    removed or the sidecar cannot be written, [delete_music_file] returns
    [True] and leaves in the sidecar exactly the library, the records
    whose file exists.  The sidecar never gains a record; it keeps its
    record count when every record references an existing file, and
    loses the stale records otherwise. *)
Theorem delete_music_file_unlisted (path : string) (w : world) :
  path <> metadata_file self ->
  (forall m, m ∈ library self w -> filepath m <> path) ->
  (Fs.path_exists path w = true -> Fs.can_remove path w = true) ->
  Fs.can_write (metadata_file self) w = true ->
  exists w',
    delete_music_file self path w = (Ok true, w') /\
    sidecar_records self w' = library self w /\
    (length (sidecar_records self w') <= length (sidecar_records self w))%nat /\
    (Forall (file_present w) (sidecar_records self w) ->
       sidecar_records self w' = sidecar_records self w) /\
    (length (sidecar_records self w') = length (sidecar_records self w) ->
       Forall (file_present w) (sidecar_records self w)).
Proof.
  intros Hne Hout Hrm Hwr. rewrite delete_music_file_spec.
  destruct (Fs.path_exists path w && negb (Fs.can_remove path w)) eqn:E.
  { apply andb_true_iff in E as [Ex Er]. rewrite (Hrm Ex) in Er. done. }
  cbv zeta.
  assert (Fs.can_write (metadata_file self) (without_file path w) = true)
    as ->.
  { unfold Fs.can_write, without_file in *. cbn.
    by rewrite lookup_delete_ne. }
  eexists. split; [reflexivity|].
  rewrite sidecar_records_written, library_without_file by done.
  rewrite list_filter_filter_l by done.
  rewrite (filter_all _ (library self w)) by (by apply Forall_forall).
  split; [done|]. unfold library. split; [apply length_filter|]. split.
  - apply filter_all.
  - apply filter_length_all.
Qed.

(** What [save_audio] does, case by case. *)
Lemma save_audio_spec (a : ndarray) (path : string) (rate : option Z)
    (w : world) :
  AudioProcessor.save_audio a path rate w =
  match AudioProcessor.first_channel a with
  | Ok xs =>
      match np_abs_max xs with
      | Ok peak =>
          if Fs.can_write path w then
            (Ok true,
             set_files w
               (<[path := WavFile
                    {| wav_rate := default AudioProcessor.sample_rate rate;
                       wav_data := AudioProcessor.normalize xs peak |}]>
                  (files w)))
          else (Ok false, w)
      | Raise _ => (Ok false, w)
      end
  | Raise _ => (Ok false, w)
  end.
Proof.
  unfold AudioProcessor.save_audio, catch, bind, lift, Fs.write_file, ret.
  destruct (AudioProcessor.first_channel a) as [xs|]; [|done].
  destruct (np_abs_max xs) as [peak|]; [|done].
  by destruct (Fs.can_write path w).
Qed.

(** A [save_audio] that returns [True] has written a WAV file at the
    path; one that returns [False] has written nothing. *)
Lemma save_audio_cases (a : ndarray) (path : string) (rate : option Z)
    (w : world) :
  (exists f,
     AudioProcessor.save_audio a path rate w
       = (Ok true, set_files w (<[path := WavFile f]> (files w))))
  \/ AudioProcessor.save_audio a path rate w = (Ok false, w).
Proof.
  rewrite save_audio_spec.
  destruct (AudioProcessor.first_channel a) as [xs|]; [|by right].
  destruct (np_abs_max xs) as [peak|]; [|by right].
  destruct (Fs.can_write path w); [left; eauto | by right].
Qed.

(** [save_metadata] appends the record when the sidecar can take it, and
    otherwise swallows the exception and leaves the disk as it is. *)
Lemma save_metadata_spec (music_metadata : MusicRecord) (w : world) :
  save_metadata self music_metadata w =
  (Ok tt,
   if can_append self w then
     set_files w
       (<[metadata_file self :=
            JsonFile (sidecar_records self w ++ [music_metadata])]> (files w))
   else w).
Proof.
  unfold save_metadata, can_append, sidecar_records, catch, bind,
    Fs.exists_, Fs.read_json, Fs.write_file, Fs.path_exists, ret.
  destruct (files w !! metadata_file self) as [n|] eqn:E.
  - rewrite bool_decide_eq_true_2 by eauto. rewrite E.
    destruct n; try (by rewrite andb_false_r).
    rewrite andb_true_r.
    by destruct (Fs.can_write (metadata_file self) w).
  - rewrite bool_decide_eq_false_2 by (by intros [? ?]).
    rewrite andb_true_r.
    by destruct (Fs.can_write (metadata_file self) w).
Qed.

(** C1, as the code has it. [save_music_file] never raises, and its
    result follows the audio write alone: [None] when [save_audio]
    returns [False], with nothing written, and the file path when
    [save_audio] returns [True].  In that case the record is appended to
    the sidecar when the sidecar can take it; when it cannot, the failure
    is swallowed by [save_metadata], the disk keeps the audio file
    without a record, and the file path is returned all the same. *)
Theorem save_music_file_result (audio_array : ndarray) (prompt_text : string)
    (metadata : option ExtraMetadata) (now : string) (w : world) :
  let name := "music_" +:+ now +:+ ".wav" in
  let path := Fs.path_join (export_path self) name in
  exists saved w1 w',
    AudioProcessor.save_audio audio_array path None w = (Ok saved, w1) /\
    save_music_file self audio_array prompt_text metadata now w
      = (Ok (if saved then Some path else None), w') /\
    (saved = false -> w1 = w /\ w' = w) /\
    (saved = true ->
       exists size,
         Fs.getsize path w1 = (Ok size, w1) /\
         w' = if can_append self w1 then
                set_files w1
                  (<[metadata_file self :=
                       JsonFile (sidecar_records self w1 ++
                         [{| filename := name; prompt := prompt_text;
                             timestamp := now; filepath := path;
                             file_size := size; extra := metadata |}])]>
                     (files w1))
              else w1).
Proof.
  cbv zeta. unfold save_music_file, catch, bind.
  destruct (save_audio_cases audio_array
              (Fs.path_join (export_path self) ("music_" +:+ now +:+ ".wav"))
              None w) as [[f ->] | ->].
  - exists true. eexists. eexists. split; [reflexivity|].
    unfold Fs.getsize at 1. cbn [files set_files].
    rewrite lookup_insert_eq. rewrite save_metadata_spec. unfold ret.
    split; [reflexivity|]. split; [done|]. intros _.
    exists (Fs.wav_bytes f). split; [|reflexivity].
    unfold Fs.getsize. cbn [files set_files]. by rewrite lookup_insert_eq.
  - exists false, w, w. unfold ret. repeat split; done.
Qed.



End LibraryStore.

(** ** The store on concrete libraries *)

Section Scenarios.

Import ExportManager.

(** The three saves succeed and leave three records in the sidecar. *)
Example three_saves_library :
  fst (three_saves empty_world)
  = Ok [Some "generated_music/music_20240101_000001.wav";
        Some "generated_music/music_20240101_000002.wav";
        Some "generated_music/music_20240101_000003.wav"] /\
  library default_self saved_three
  = [record_at "20240101_000001"; record_at "20240101_000002";
     record_at "20240101_000003"].
Proof. split; by vm_compute. Qed.


(** A negative limit is a slice bound counted from the end:
    [l[:-1]] drops the last record instead of keeping none. *)
Example get_recent_music_negative_limit :
  fst (get_recent_music default_self (-1) saved_three)
  = Ok [record_at "20240101_000003"; record_at "20240101_000002"].
Proof. by vm_compute. Qed.

(** C1, as stated, fails. The sidecar cannot be opened for writing, so
    the metadata write raises; [save_music_file] returns the file path
    all the same, with the audio file on disk and no record of it. *)
Lemma save_music_file_metadata_failure :
  let audio := Arr1 [1; - (1 # 2)]%Q in
  let path := "generated_music/music_20240101_000001.wav" in
  let w1 := snd (AudioProcessor.save_audio audio path None
                   readonly_sidecar_world) in
  let r := save_music_file default_self audio "calm piano" None
             "20240101_000001" readonly_sidecar_world in
  fst (Fs.write_file (metadata_file default_self)
         (JsonFile [record_at "20240101_000001"]) w1)
    = Raise (OSError "cannot open for writing") /\
  fst r = Ok (Some path) /\
  Fs.path_exists path (snd r) = true /\
  sidecar_records default_self (snd r) = [].
Proof. cbv zeta. repeat split; by vm_compute. Qed.

(** C2, as stated, fails. The path is in no record of the sidecar, the
    call returns [True], and the sidecar goes from three records to two:
    the stale record is dropped by the rewrite. *)
Lemma delete_music_file_drops_stale :
  let path := "generated_music/music_20240103_000000.wav" in
  let r := delete_music_file default_self path stale_world in
  Forall (fun m => filepath m <> path)
    (sidecar_records default_self stale_world) /\
  fst r = Ok true /\
  length (sidecar_records default_self stale_world) = 3%nat /\
  length (sidecar_records default_self (snd r)) = 2%nat.
Proof.
  cbv zeta. split; [|repeat split; by vm_compute].
  vm_compute. repeat constructor; discriminate.
Qed.

(** The same call, seen through the statement that holds: the sidecar
    is left with the library. *)
Lemma delete_music_file_unlisted_witness :
  exists w',
    delete_music_file default_self
      "generated_music/music_20240103_000000.wav" stale_world = (Ok true, w') /\
    sidecar_records default_self w' = library default_self stale_world /\
    (length (sidecar_records default_self w')
     <= length (sidecar_records default_self stale_world))%nat /\
    (Forall (file_present stale_world)
       (sidecar_records default_self stale_world) ->
     sidecar_records default_self w'
     = sidecar_records default_self stale_world) /\
    (length (sidecar_records default_self w')
     = length (sidecar_records default_self stale_world) ->
     Forall (file_present stale_world)
       (sidecar_records default_self stale_world)).
Proof.
  apply (delete_music_file_unlisted default_self
           "generated_music/music_20240103_000000.wav" stale_world).
  - discriminate.
  - apply Forall_forall. vm_compute. repeat constructor; discriminate.
  - by vm_compute.
  - by vm_compute.
Defined.

(** Deleting the third record of the library with a stale first
    record. *)
Lemma delete_music_file_prunes_witness :
  let path := "generated_music/music_20240101_000003.wav" in
  let w' := snd (delete_music_file default_self path stale_world) in
  exists l,
    files w' !! metadata_file default_self = Some (JsonFile l) /\
    l = filter (fun m => filepath m <> path)
          (library default_self (without_file path stale_world)) /\
    (forall m, m ∈ l ->
       m ∈ sidecar_records default_self stale_world /\ filepath m <> path /\
       file_present stale_world m /\ file_present w' m) /\
    (forall m, m ∈ sidecar_records default_self stale_world ->
       stale stale_world m -> m ∉ l).
Proof.
  cbv zeta.
  apply (delete_music_file_prunes default_self
           "generated_music/music_20240101_000003.wav" stale_world).
  by vm_compute.
Defined.

(** Deleting the third record of that library leaves the second one
    alone in the sidecar: the stale first record goes too. *)
Example delete_music_file_third :
  sidecar_records default_self
    (snd (delete_music_file default_self
            "generated_music/music_20240101_000003.wav" stale_world))
  = [record_at "20240101_000002"].
Proof. by vm_compute. Qed.

(** A sidecar that cannot be rewritten: [delete_music_file] returns
    [False]. *)
Example delete_music_file_sidecar_refused :
  delete_music_file default_self "generated_music/music_20240101_000001.wav"
    readonly_sidecar_world
  = (Ok false, readonly_sidecar_world).
Proof. by vm_compute. Qed.

(** An empty sample: the audio write fails and [save_music_file] returns
    [None] with nothing written. *)
Example save_music_file_audio_failure :
  save_music_file default_self (Arr1 []) "calm piano" None "20240101_000001"
    empty_world
  = (Ok None, empty_world).
Proof. by vm_compute. Qed.

(** Reading the library does not repair the sidecar. *)
Example load_music_library_stale :
  load_music_library default_self stale_world
  = (Ok [record_at "20240101_000002"; record_at "20240101_000003"],
     stale_world).
Proof. by vm_compute. Qed.

End Scenarios.
